(** * Padding-free acceleration plugin: a shallow embedding

    Source: [plugins/instruct-lab/src/fms_acceleration_ilab/framework_plugin_padding_free.py].

    The plugin is glue code over objects owned by the training stack.  The
    embedding therefore has three layers:

    - [PackagingVersion]: the ordering of [packaging.version.Version] values
      that the version gate relies on;
    - [Py]: a small Python object model (values, a heap of objects with two
      levels of attribute lookup, exceptions, a state-and-exception monad);
    - [PaddingFree]: the plugin itself, one definition per source function. *)

From Stdlib Require Import Ascii String List Bool Arith Lia.
From stdpp Require Import base option gmap strings list fin_maps.

Local Open Scope string_scope.

(** ** Versions as [packaging.version] orders them *)

Module PackagingVersion.

(** The pre-release letters after normalisation; Python compares them as
    strings, so ["a" < "b" < "rc"]. *)
Inductive pre_letter := pre_a | pre_b | pre_rc.

Definition pre_rank (p : pre_letter) : nat :=
  match p with pre_a => 0 | pre_b => 1 | pre_rc => 2 end.

(** One dot-separated piece of a local version label. *)
Inductive local_segment :=
| local_int (n : nat)
| local_str (s : string).

Record Version := mkVersion {
  epoch : nat;
  release : list nat;
  pre : option (pre_letter * nat);
  post : option nat;
  dev : option nat;
  local : option (list local_segment)
}.

(** The sentinels [NegativeInfinity] and [Infinity] of the sort key. *)
Inductive bounded (A : Type) :=
| NegativeInfinity
| Finite (a : A)
| Infinity.
Arguments NegativeInfinity {A}.
Arguments Finite {A} a.
Arguments Infinity {A}.

Definition compare_bounded {A} (cmp : A -> A -> comparison)
    (x y : bounded A) : comparison :=
  match x, y with
  | NegativeInfinity, NegativeInfinity => Eq
  | NegativeInfinity, _ => Lt
  | _, NegativeInfinity => Gt
  | Infinity, Infinity => Eq
  | Infinity, _ => Gt
  | _, Infinity => Lt
  | Finite a, Finite b => cmp a b
  end.

(** Python tuple comparison: first difference decides, a proper prefix is
    smaller. *)
Fixpoint compare_tuple {A} (cmp : A -> A -> comparison)
    (xs ys : list A) : comparison :=
  match xs, ys with
  | [], [] => Eq
  | [], _ :: _ => Lt
  | _ :: _, [] => Gt
  | x :: xs', y :: ys' =>
      match cmp x y with
      | Eq => compare_tuple cmp xs' ys'
      | c => c
      end
  end.

Definition lexico (c : comparison) (rest : comparison) : comparison :=
  match c with Eq => rest | _ => c end.

Fixpoint drop_leading_zeros (l : list nat) : list nat :=
  match l with
  | 0 :: l' => drop_leading_zeros l'
  | _ => l
  end.

(** [tuple(reversed(list(dropwhile(lambda x: x == 0, reversed(release)))))] *)
Definition strip_trailing_zeros (rel : list nat) : list nat :=
  rev (drop_leading_zeros (rev rel)).

Definition compare_pre (x y : pre_letter * nat) : comparison :=
  lexico (Nat.compare (pre_rank (fst x)) (pre_rank (fst y)))
         (Nat.compare (snd x) (snd y)).

(** A numeric local segment becomes [(n, "")], a textual one
    [(NegativeInfinity, s)]: text sorts below numbers. *)
Definition compare_local_segment (x y : local_segment) : comparison :=
  match x, y with
  | local_int a, local_int b => Nat.compare a b
  | local_str _, local_int _ => Lt
  | local_int _, local_str _ => Gt
  | local_str s, local_str t => String.compare s t
  end.

Record cmpkey_t := mkKey {
  key_epoch : nat;
  key_release : list nat;
  key_pre : bounded (pre_letter * nat);
  key_post : bounded nat;
  key_dev : bounded nat;
  key_local : bounded (list local_segment)
}.

(** [_cmpkey]: a development release with neither pre nor post sorts
    before every pre-release; a final release after them. *)
Definition cmpkey (v : Version) : cmpkey_t :=
  {| key_epoch := epoch v;
     key_release := strip_trailing_zeros (release v);
     key_pre :=
       match pre v, post v, dev v with
       | None, None, Some _ => NegativeInfinity
       | None, _, _ => Infinity
       | Some p, _, _ => Finite p
       end;
     key_post := match post v with None => NegativeInfinity | Some n => Finite n end;
     key_dev := match dev v with None => Infinity | Some n => Finite n end;
     key_local := match local v with None => NegativeInfinity | Some l => Finite l end |}.

Definition compare_key (a b : cmpkey_t) : comparison :=
  lexico (Nat.compare (key_epoch a) (key_epoch b))
 (lexico (compare_tuple Nat.compare (key_release a) (key_release b))
 (lexico (compare_bounded compare_pre (key_pre a) (key_pre b))
 (lexico (compare_bounded Nat.compare (key_post a) (key_post b))
 (lexico (compare_bounded Nat.compare (key_dev a) (key_dev b))
         (compare_bounded (compare_tuple compare_local_segment)
                          (key_local a) (key_local b)))))).

(** [a < b] on versions. *)
Definition version_lt (a b : Version) : bool :=
  match compare_key (cmpkey a) (cmpkey b) with
  | Lt => true
  | _ => false
  end.

(** A final release [N.N. ... .N]. *)
Definition final_release (rel : list nat) : Version :=
  mkVersion 0 rel None None None None.

(** *** Parsing plain release strings

    [version.parse] accepts the whole PEP 440 grammar.  Only the plain
    dotted form [N(.N)*] is parsed here, which is the form of the
    threshold constant of the plugin; anything else yields [None]. *)

Definition digit_of_ascii (c : ascii) : option nat :=
  let n := nat_of_ascii c in
  if Nat.leb 48 n && Nat.leb n 57 then Some (n - 48) else None.

(** Reads a maximal run of digits; [acc] is [None] until a digit is seen. *)
Fixpoint parse_segments (s : string) (acc : option nat) : option (list nat) :=
  match s with
  | EmptyString =>
      match acc with Some n => Some [n] | None => None end
  | String c s' =>
      if Ascii.eqb c "."%char then
        match acc, parse_segments s' None with
        | Some n, Some rest => Some (n :: rest)
        | _, _ => None
        end
      else
        match digit_of_ascii c with
        | Some d => parse_segments s' (Some (10 * default 0 acc + d))
        | None => None
        end
  end.

Definition parse (s : string) : option Version :=
  final_release <$> parse_segments s None.

End PackagingVersion.

(** ** A Python object model, as far as the plugin touches it *)

Module Py.

Definition loc := positive.

(** A class is identified by its defining module and its name; two
    classes of the same name in different modules are different. *)
Definition qualname := (string * string)%type.

Record pyclass := mkClass {
  cls_qualname : qualname;
  cls_ancestors : list qualname        (* the rest of the MRO *)
}.

Definition cls_name (c : pyclass) : string := snd (cls_qualname c).
Definition cls_mro (c : pyclass) : list qualname :=
  cls_qualname c :: cls_ancestors c.

Definition object_q : qualname := ("builtins", "object").
Definition builtin (name : string) : pyclass :=
  mkClass ("builtins", name) [object_q].

(** Values.  Compound data lives on the heap and is reached through
    [VRef]; callables are defunctionalised.  [HostFunc] is a function of
    the training stack, known by name only.  [PrepareHijack] is the closure
    [prepare] created by [_patch_dataloader], with the two variables it
    captures. *)
Inductive val :=
| VNone
| VBool (b : bool)
| VStr (s : string)
| VRef (l : loc)
| VFunc (f : func)
| VMethod (f : func) (self : val)       (* [MethodType(f, self)] *)
with func :=
| HostFunc (name : string)
| PrepareHijack (_old_prepare : val) (DataCollatorWithFlattening : pyclass).

(** An object: its class, what attribute lookup finds on the class, and
    the instance dictionary. *)
Record obj := mkObj {
  class_of : pyclass;
  class_attrs : gmap string val;
  inst_attrs : gmap string val
}.

Definition set_inst_attr (name : string) (v : val) (o : obj) : obj :=
  mkObj (class_of o) (class_attrs o) (<[name := v]> (inst_attrs o)).

Inductive exn :=
| AttributeError
| IndexError
| TypeError (msg : string)
| HostException (name : string).

Inductive result (A : Type) :=
| Ok (a : A)
| Raise (e : exn).
Arguments Ok {A} a.
Arguments Raise {A} e.

(** [type(v).__mro__], by qualified names. *)
Definition val_mro (h : gmap loc obj) (v : val) : list qualname :=
  match v with
  | VNone => cls_mro (builtin "NoneType")
  | VBool _ => ("builtins", "bool") :: ("builtins", "int") :: [object_q]
  | VStr _ => cls_mro (builtin "str")
  | VFunc _ => cls_mro (builtin "function")
  | VMethod _ _ => cls_mro (builtin "method")
  | VRef l =>
      match h !! l with
      | Some o => cls_mro (class_of o)
      | None => []
      end
  end.

Definition isinstance (h : gmap loc obj) (v : val) (c : qualname) : bool :=
  bool_decide (c ∈ val_mro h v).

(** Attribute lookup on an object: the instance dictionary first, then
    the class, where a plain function becomes a method bound to the
    object. *)
Definition lookup_attr (l : loc) (o : obj) (name : string) : option val :=
  match inst_attrs o !! name with
  | Some v => Some v
  | None =>
      match class_attrs o !! name with
      | Some (VFunc f) => Some (VMethod f (VRef l))
      | other => other
      end
  end.

(** [str.endswith]: some tail of [s] is [suffix]. *)
Fixpoint endswith (s suffix : string) : bool :=
  String.eqb s suffix ||
  match s with
  | EmptyString => false
  | String _ s' => endswith s' suffix
  end.

(** [n] blanks. *)
Fixpoint blanks (n : nat) : string :=
  match n with
  | O => ""
  | S n' => String " "%char (blanks n')
  end.

End Py.

(** ** The training stack as the plugin sees it *)

Module Host.
Import Py.

(** [partial(build_fa_forward, causal=...)]; the builder itself belongs to
    the attention kernel and is not interpreted. *)
Inductive forward_builder_t :=
| partial_build_fa_forward (causal : bool).

Record ModelPatcherTrigger := mkTrigger {
  check : obj -> bool
}.

Record ModelPatcherRule := mkRule {
  rule_id : string;
  trigger : ModelPatcherTrigger;
  forward_builder : forward_builder_t
}.

(** The mutable world: the heap of host objects, the rules handed to
    [ModelPatcher], the warnings emitted so far and the plugin registry. *)
Record state := mkState {
  heap : gmap loc obj;
  patcher_rules : list ModelPatcherRule;
  emitted_warnings : list string;
  plugin_registry : list (qualname * list string)
}.

Definition with_heap (h : gmap loc obj) (s : state) : state :=
  mkState h (patcher_rules s) (emitted_warnings s) (plugin_registry s).

(** Computations read and write the state and may raise; what was written
    before an exception stays written. *)
Definition M (A : Type) : Type := state -> result A * state.

Definition ret {A} (a : A) : M A := fun s => (Ok a, s).
Definition raise {A} (e : exn) : M A := fun s => (Raise e, s).
Definition bind {A B} (m : M A) (k : A -> M B) : M B :=
  fun s =>
    match m s with
    | (Ok a, s') => k a s'
    | (Raise e, s') => (Raise e, s')
    end.

Declare Scope py_scope.
Delimit Scope py_scope with py.
Notation "x <- m ;; k" := (bind m (fun x => k))
  (at level 100, m at next level, right associativity) : py_scope.
Notation "m ;;; k" := (bind m (fun _ => k))
  (at level 100, right associativity) : py_scope.
Local Open Scope py_scope.

(** [v.name].  Only heap objects carry the attributes the plugin asks for;
    [None], booleans, strings and bare callables have none of them. *)
Definition getattr (v : val) (name : string) : M val :=
  fun s =>
    match v with
    | VRef l =>
        match heap s !! l with
        | Some o =>
            match lookup_attr l o name with
            | Some x => (Ok x, s)
            | None => (Raise AttributeError, s)
            end
        | None => (Raise AttributeError, s)
        end
    | _ => (Raise AttributeError, s)
    end.

(** [v.name = x]: writes the instance dictionary. *)
Definition setattr (v : val) (name : string) (x : val) : M unit :=
  fun s =>
    match v with
    | VRef l =>
        match heap s !! l with
        | Some o => (Ok tt, with_heap (<[l := set_inst_attr name x o]> (heap s)) s)
        | None => (Raise AttributeError, s)
        end
    | _ => (Raise AttributeError, s)
    end.

(** [isinstance(v, c)] *)
Definition isinstance_of (v : val) (c : qualname) : M bool :=
  fun s => (Ok (isinstance (heap s) v c), s).

(** [args[i]] *)
Definition index (args : list val) (i : nat) : M val :=
  match args !! i with
  | Some a => ret a
  | None => raise IndexError
  end.

(** Putting a new object on the heap, at an address not in use. *)
Definition alloc (o : obj) : M val :=
  fun s =>
    let l := fresh (dom (heap s)) in
    (Ok (VRef l), with_heap (<[l := o]> (heap s)) s).

(** [warnings.warn(msg)] *)
Definition warn (msg : string) : M unit :=
  fun s =>
    (Ok tt, mkState (heap s) (patcher_rules s)
                    (emitted_warnings s ++ [msg]) (plugin_registry s)).

(** Modelled from the spec: [ModelPatcher.register] belongs to the plugin
    host ([fms_acceleration.model_patcher]), outside this source file; the
    spec calls it a registry owned by the host, so the call
    records the rule in that registry. *)
Definition ModelPatcher_register (r : ModelPatcherRule) : M unit :=
  fun s =>
    (Ok tt, mkState (heap s) (patcher_rules s ++ [r])
                    (emitted_warnings s) (plugin_registry s)).

(** Modelled from the spec: [AccelerationPlugin.register_plugin] belongs to
    the plugin host, outside this source file; the spec
    describes it as a registration call with a configuration key path, so
    the call records the class with its key paths. *)
Definition register_plugin (plugin : qualname)
    (configuration_and_paths : list string) : M unit :=
  fun s =>
    (Ok tt, mkState (heap s) (patcher_rules s) (emitted_warnings s)
                    (plugin_registry s ++ [(plugin, configuration_and_paths)])).

(** What is installed around the plugin: the parsed
    [transformers.__version__], and the behaviour of the functions of the
    training stack when called with positional arguments and the
    [device_placement] keyword ([None] when the keyword is not passed). *)
Record environment := mkEnv {
  transformers_version : PackagingVersion.Version;
  host_call : string -> option val -> list val -> option val -> M val
}.

(** The classes of the training stack the plugin names. *)
Definition DataLoader : qualname :=
  ("torch.utils.data.dataloader", "DataLoader").
Definition DataCollatorForSeq2Seq : qualname :=
  ("transformers.data.data_collator", "DataCollatorForSeq2Seq").
Definition DefaultDataCollator : qualname :=
  ("transformers.data.data_collator", "DefaultDataCollator").
Definition DataCollatorMixin : qualname :=
  ("transformers.data.data_collator", "DataCollatorMixin").

(** Modelled from the spec: the two [DataCollatorWithFlattening] classes are
    defined outside this source file, one in transformers and one in
    [ilab_utils]; the spec only says that the collate function is swapped
    for another.  Both are taken as transformers introduced the class: a
    data class derived from [DefaultDataCollator], whose constructor sets
    [return_tensors] and [return_position_ids] on the new object and
    announces itself with a warning.  The two are told apart by the module
    that defines them; their methods are not modelled. *)

(** [from transformers import DataCollatorWithFlattening] *)
Definition transformers_DataCollatorWithFlattening : pyclass :=
  mkClass ("transformers.data.data_collator", "DataCollatorWithFlattening")
          [DefaultDataCollator; DataCollatorMixin; object_q].

(** [from .ilab_utils import DataCollatorWithFlattening] *)
Definition ilab_utils_DataCollatorWithFlattening : pyclass :=
  mkClass ("fms_acceleration_ilab.ilab_utils", "DataCollatorWithFlattening")
          [DefaultDataCollator; DataCollatorMixin; object_q].

(** What the constructor of a flattening collator warns. *)
Definition flattening_warning : string :=
  "Using `DataCollatorWithFlattening` will flatten the entire mini batch " +:+
  "into single long sequence." +:+
  "Make sure your attention computation is able to handle it!".

(** The object the constructor leaves behind. *)
Definition flattening_instance (c : pyclass) : obj :=
  mkObj c ∅ {[ "return_tensors" := VStr "pt";
               "return_position_ids" := VBool true ]}.

(** Modelled from the spec: [DataCollatorWithFlattening()], the constructor
    of the classes described above, called without arguments. *)
Definition construct (c : pyclass) : M val :=
  x <- alloc (flattening_instance c) ;;
  warn flattening_warning ;;;
  ret x.

End Host.

(** ** The plugin *)

Module PaddingFree.
Import PackagingVersion Py Host.
Local Open Scope py_scope.

(** *** Configuration *)

Inductive scalar :=
| cfg_none
| cfg_bool (b : bool)
| cfg_int (n : Z)
| cfg_str (s : string).

Global Instance scalar_eq_dec : EqDecision scalar.
Proof. solve_decision. Defined.

(** [Dict[str, Dict]]: nested dictionaries with scalar leaves. *)
Local Unset Elimination Schemes.
Inductive config :=
| cfg_leaf (x : scalar)
| cfg_dict (entries : gmap string config).
Local Set Elimination Schemes.

(** [TRANSFORMERS_VERSION = "4.44"] *)
Definition TRANSFORMERS_VERSION : string := "4.44".

(** [version.parse(TRANSFORMERS_VERSION)], see [parse_TRANSFORMERS_VERSION]. *)
Definition threshold : Version := final_release [4; 44].

Definition PaddingFreeAccelerationPlugin_class : qualname :=
  ("fms_acceleration_ilab.framework_plugin_padding_free",
   "PaddingFreeAccelerationPlugin").

(** An instance of the plugin. *)
Record PaddingFreeAccelerationPlugin := mkPlugin {
  configurations : config;
  _method : scalar
}.

Definition require_packages : list string := ["flash_attn"].

(** [__init__].  The inherited [_check_config_and_maybe_check_values]
    belongs to the plugin host, outside this source file, and is a parameter
    here; the base class constructor is taken to keep the configuration. *)
Definition __init__
    (_check_config_and_maybe_check_values :
       config -> string -> list scalar -> M scalar)
    (configurations : config) : M PaddingFreeAccelerationPlugin :=
  m <- _check_config_and_maybe_check_values configurations
         "training.attention.padding_free.method" [cfg_str "huggingface"] ;;
  ret (mkPlugin configurations m).

Definition requires_agumentation (self : PaddingFreeAccelerationPlugin) : bool :=
  true.

(** *** Attention patch *)

(** The local predicate of [augmentation]. *)
Definition is_flash_attn_2 (module : obj) : bool :=
  if endswith (cls_name (class_of module)) "FlashAttention2" then true
  else false.

(** What an f-string field shows for a value.  The text of objects and
    callables is decided by their classes; a placeholder stands for it. *)
Definition py_str (v : val) : string :=
  match v with
  | VStr s => s
  | VNone => "None"
  | VBool true => "True"
  | VBool false => "False"
  | VRef _ => "<object>"
  | VFunc _ => "<function>"
  | VMethod _ _ => "<bound method>"
  end.

(** [model.config.model_type] *)
Definition model_config_model_type (model : val) : M val :=
  config <- getattr model "config" ;;
  getattr config "model_type".

Definition version_warning : string :=
  "transformers version is equal or later " +:+ blanks 16 +:+
  "than " +:+ TRANSFORMERS_VERSION +:+
  ", attention forward will not be replaced.".

Definition augmentation (env : environment)
    (self : PaddingFreeAccelerationPlugin)
    (model train_args modifiable_args : val) : M (val * val) :=
  (if version_lt (transformers_version env) threshold then
     model_type <- model_config_model_type model ;;
     ModelPatcher_register
       (mkRule (py_str model_type +:+ "-pad-free")
               (mkTrigger is_flash_attn_2)
               (partial_build_fa_forward true))
   else
     warn version_warning) ;;;
  ret (model, modifiable_args).

(** *** Data loader hijack *)

Definition collator_error : string :=
  "The padding-free plugin currently only works with a " +:+ blanks 20 +:+
  "`DataCollatorForSeq2Seq` collate_fn, " +:+ blanks 20 +:+
  "otherwise the collation can be unreliable".

(** The nested function [prepare].  [call_old] is what calling the
    captured [_old_prepare] does. *)
Definition prepare
    (call_old : list val -> option val -> M val)
    (DataCollatorWithFlattening : pyclass)
    (self : val) (args : list val) (device_placement : option val) : M val :=
  let device_placement := default VNone device_placement in
  pass <- (if Nat.ltb 1 (length args) then ret true
           else
             a <- index args 0 ;;
             b <- isinstance_of a DataLoader ;;
             ret (negb b)) ;;
  if pass : bool then call_old args (Some device_placement)
  else
    dataloader <- index args 0 ;;
    collate_fn <- getattr dataloader "collate_fn" ;;
    b <- isinstance_of collate_fn DataCollatorForSeq2Seq ;;
    if negb b then raise (TypeError collator_error)
    else
      c <- construct DataCollatorWithFlattening ;;
      setattr dataloader "collate_fn" c ;;;
      ret dataloader.

(** Calling a value with positional arguments and, possibly, the
    [device_placement] keyword. *)
Fixpoint call_val (env : environment) (f : val)
    (args : list val) (device_placement : option val) : M val :=
  match f with
  | VFunc g => call_func env g None args device_placement
  | VMethod g self => call_func env g (Some self) args device_placement
  | _ => raise (TypeError "object is not callable")
  end
with call_func (env : environment) (g : func) (self : option val)
    (args : list val) (device_placement : option val) : M val :=
  match g with
  | HostFunc name => host_call env name self args device_placement
  | PrepareHijack _old_prepare DataCollatorWithFlattening =>
      match self with
      | Some self =>
          prepare (call_val env _old_prepare) DataCollatorWithFlattening
                  self args device_placement
      | None =>
          (* called unbound: the first positional argument is [self] *)
          match args with
          | self :: args' =>
              prepare (call_val env _old_prepare) DataCollatorWithFlattening
                      self args' device_placement
          | [] => raise (TypeError "missing required argument self")
          end
      end
  end.

Definition _patch_dataloader (env : environment)
    (self : PaddingFreeAccelerationPlugin) (accelerator : val) : M unit :=
  let DataCollatorWithFlattening :=
    if version_lt (transformers_version env) threshold
    then ilab_utils_DataCollatorWithFlattening
    else transformers_DataCollatorWithFlattening in
  _old_prepare <- getattr accelerator "prepare" ;;
  setattr accelerator "prepare"
    (VMethod (PrepareHijack _old_prepare DataCollatorWithFlattening) accelerator).

Definition get_callbacks_and_ready_for_train (env : environment)
    (self : PaddingFreeAccelerationPlugin) (model accelerator : val)
    : M (list val) :=
  _patch_dataloader env self accelerator ;;;
  ret [].

(** The call of [accelerator.prepare] as the trainer issues it, with
    positional arguments and, possibly, [device_placement]. *)
Definition invoke_prepare (env : environment) (accelerator : val)
    (args : list val) (device_placement : option val) : M val :=
  f <- getattr accelerator "prepare" ;;
  call_val env f args device_placement.

(** *** Registration at import time *)

Definition module_load : M unit :=
  register_plugin PaddingFreeAccelerationPlugin_class
                  ["training.attention.padding_free"].

End PaddingFree.

(** ** Vocabulary of the properties *)

Module Props.
Import PackagingVersion Py Host PaddingFree.

(** What reading [v.name] gives in state [s]. *)
Definition attr (s : state) (v : val) (name : string) : result val :=
  fst (getattr v name s).

(** The collator class that [_patch_dataloader] imports under [env]. *)
Definition selected_collator (env : environment) : pyclass :=
  if version_lt (transformers_version env) threshold
  then ilab_utils_DataCollatorWithFlattening
  else transformers_DataCollatorWithFlattening.

(** [accelerator.prepare] is the hijack that [_patch_dataloader] installs
    under [env] over the earlier method [old]. *)
Definition patched_by (env : environment) (old accelerator : val)
    (s : state) : Prop :=
  attr s accelerator "prepare" =
    Ok (VMethod (PrepareHijack old (selected_collator env)) accelerator).

(** A rule counts as the padding-free rule of model type [mt] when it
    carries the id [mt-pad-free] and its trigger accepts exactly the
    modules whose class name ends with [FlashAttention2]. *)
Definition pad_free_rule (mt : string) (r : ModelPatcherRule) : Prop :=
  rule_id r = mt +:+ "-pad-free" /\
  forall module : obj,
    check (trigger r) module = true <->
    exists p, cls_name (class_of module) = p +:+ "FlashAttention2".

(** The state after the two entry points of the plugin have run on it in
    the order the host calls them. *)
Definition after_setup (env : environment)
    (self : PaddingFreeAccelerationPlugin)
    (model train_args modifiable_args accelerator : val) (s : state) : state :=
  snd (get_callbacks_and_ready_for_train env self model accelerator
         (snd (augmentation env self model train_args modifiable_args s))).

(** "A no-op with a warning", read over the whole plugin: after set-up the
    one warning has been emitted and nothing else differs. *)
Definition degrades_to_noop (env : environment) : Prop :=
  forall self model train_args modifiable_args accelerator s,
    let s' := after_setup env self model train_args modifiable_args accelerator s in
    emitted_warnings s' = (emitted_warnings s ++ [version_warning])%list /\
    patcher_rules s' = patcher_rules s /\
    heap s' = heap s.

(** What the hijacked [prepare] decides from its arguments, whatever
    collator class it was built with. *)
Inductive decision :=
| PassThrough
| Fail (e : exn)
| Replace (dataloader : val).

Definition decide_prepare (s : state) (args : list val) : decision :=
  match args with
  | [] => Fail IndexError
  | [a] =>
      if isinstance (heap s) a DataLoader then
        match attr s a "collate_fn" with
        | Ok collate_fn =>
            if isinstance (heap s) collate_fn DataCollatorForSeq2Seq
            then Replace a
            else Fail (TypeError collator_error)
        | Raise e => Fail e
        end
      else PassThrough
  | _ :: _ :: _ => PassThrough
  end.

(** Storing a new instance of [c] as the [collate_fn] of [dataloader]. *)
Definition replace_collate_fn (c : pyclass) (dataloader : val) : M val :=
  (x <- construct c ;;
   setattr dataloader "collate_fn" x ;;;
   ret dataloader)%py.

End Props.

(** ** Concrete worlds used to exercise the statements *)

Module Fixtures.
Import PackagingVersion Py Host PaddingFree.

(** An old prepare that hands back its first argument. *)
Definition echo_call (name : string) (self : option val)
    (args : list val) (device_placement : option val) : M val :=
  ret (default VNone (head args)).

Definition env_4_43_3 : environment := mkEnv (final_release [4; 43; 3]) echo_call.
Definition env_4_44_0 : environment := mkEnv (final_release [4; 44; 0]) echo_call.
Definition env_4_45_dev : environment :=
  mkEnv (mkVersion 0 [4; 45; 0] None None (Some 0) None) echo_call.

Definition huggingface_config : config :=
  cfg_dict {[ "training" := cfg_dict {[ "attention" := cfg_dict
    {[ "padding_free" := cfg_dict {[ "method" := cfg_leaf (cfg_str "huggingface") ]} ]} ]} ]}.

Definition plugin : PaddingFreeAccelerationPlugin :=
  mkPlugin huggingface_config (cfg_str "huggingface").

Definition llama_model : obj :=
  mkObj (mkClass ("transformers.models.llama.modeling_llama", "LlamaForCausalLM")
                 [("torch.nn.modules.module", "Module"); object_q])
        ∅ {[ "config" := VRef 2%positive ]}.
Definition llama_config : obj :=
  mkObj (mkClass ("transformers.models.llama.configuration_llama", "LlamaConfig")
                 [object_q])
        {[ "model_type" := VStr "llama" ]} ∅.
Definition accelerator_obj : obj :=
  mkObj (mkClass ("accelerate.accelerator", "Accelerator") [object_q])
        {[ "prepare" := VFunc (HostFunc "Accelerator.prepare") ]}
        {[ "device_placement" := VBool true ]}.
Definition seq2seq_collator : obj :=
  mkObj (mkClass DataCollatorForSeq2Seq [object_q]) ∅ ∅.
Definition seq2seq_loader : obj :=
  mkObj (mkClass DataLoader [object_q]) ∅ {[ "collate_fn" := VRef 5%positive ]}.
Definition default_loader : obj :=
  mkObj (mkClass DataLoader [object_q]) ∅
        {[ "collate_fn" := VFunc (HostFunc "default_collate") ]}.
Definition lora_tuple : obj :=
  mkObj (builtin "tuple") ∅ ∅.

Definition model : val := VRef 1%positive.
Definition accelerator : val := VRef 3%positive.
Definition dataloader : val := VRef 4%positive.
Definition plain_dataloader : val := VRef 6%positive.
Definition modifiable_args : val := VRef 7%positive.

Definition world : state :=
  mkState
    (list_to_map
       [ (1%positive, llama_model); (2%positive, llama_config);
         (3%positive, accelerator_obj); (4%positive, seq2seq_loader);
         (5%positive, seq2seq_collator); (6%positive, default_loader);
         (7%positive, lora_tuple) ])
    [] [] [].

(** The same world once the plugin has hijacked [accelerator.prepare]. *)
Definition patched_world (env : environment) : state :=
  snd (get_callbacks_and_ready_for_train env plugin model accelerator world).

End Fixtures.

(** * Properties *)

Import PackagingVersion Py Host PaddingFree Props.
Local Open Scope py_scope.

(** ** Strings and versions *)

Lemma endswith_unfold (s suffix : string) :
  endswith s suffix =
    String.eqb s suffix ||
    match s with EmptyString => false | String _ s' => endswith s' suffix end.
Proof. now destruct s. Qed.

Lemma endswith_spec (s suffix : string) :
  endswith s suffix = true <-> exists p, s = p +:+ suffix.
Proof.
  induction s as [|c s IH]; rewrite endswith_unfold.
  - rewrite orb_false_r, String.eqb_eq. split.
    + intros <-. now exists "".
    + intros [[|c p] Hp]; simpl in Hp; [assumption | discriminate].
  - rewrite orb_true_iff, String.eqb_eq, IH. split.
    + intros [<- | [p ->]]; [now exists "" | now exists (String c p)].
    + intros [[|c' p] Hp]; simpl in Hp.
      * now left.
      * right. exists p. now inversion Hp.
Qed.

Lemma is_flash_attn_2_spec (module : obj) :
  is_flash_attn_2 module = true <->
  exists p, cls_name (class_of module) = p +:+ "FlashAttention2".
Proof.
  unfold is_flash_attn_2. rewrite <- endswith_spec.
  destruct (endswith _ _); intuition congruence.
Qed.

(** The threshold is what parsing the constant of the source gives. *)
Lemma parse_TRANSFORMERS_VERSION :
  PackagingVersion.parse TRANSFORMERS_VERSION = Some threshold.
Proof. reflexivity. Qed.

(** Trailing zeros do not count: 4.44.0 is 4.44. *)
Lemma strip_trailing_zeros_snoc_zero (rel : list nat) :
  strip_trailing_zeros (rel ++ [0]) = strip_trailing_zeros rel.
Proof. unfold strip_trailing_zeros. now rewrite rev_app_distr. Qed.

Example below_threshold_4_43_3 :
  version_lt (final_release [4; 43; 3]) threshold = true.
Proof. reflexivity. Qed.

Example not_below_threshold_4_44_0 :
  version_lt (final_release [4; 44; 0]) threshold = false.
Proof. reflexivity. Qed.

(** A development or candidate build of 4.44 still sorts below 4.44. *)
Example below_threshold_4_44_dev :
  version_lt (mkVersion 0 [4; 44; 0] None None (Some 0) None) threshold = true /\
  version_lt (mkVersion 0 [4; 44; 0] (Some (pre_rc, 1)) None None None) threshold = true.
Proof. split; reflexivity. Qed.

(** ** Reading and writing attributes *)

(** Reading an attribute never writes. *)
Lemma getattr_pure (v : val) (name : string) (s : state) :
  getattr v name s = (attr s v name, s).
Proof.
  unfold attr, getattr.
  destruct v; try reflexivity.
  destruct (heap s !! l) as [o|]; [|reflexivity].
  now destruct (lookup_attr l o name).
Qed.

(** A successful read comes from an object on the heap. *)
Lemma attr_Ok_inv (s : state) (v : val) (name : string) (x : val) :
  attr s v name = Ok x ->
  exists l o, v = VRef l /\ heap s !! l = Some o /\ lookup_attr l o name = Some x.
Proof.
  unfold attr, getattr. destruct v; simpl; try discriminate.
  destruct (heap s !! l) as [o|] eqn:Ho; simpl; [|discriminate].
  destruct (lookup_attr l o name) as [y|] eqn:Hy; simpl; [|discriminate].
  intros [= <-]. eauto.
Qed.

Lemma attr_VRef (s : state) (l : loc) (o : obj) (name : string) :
  heap s !! l = Some o ->
  attr s (VRef l) name =
    match lookup_attr l o name with Some x => Ok x | None => Raise AttributeError end.
Proof.
  intros Ho. unfold attr, getattr. rewrite Ho. now destruct (lookup_attr l o name).
Qed.

Lemma lookup_attr_set_eq (l : loc) (o : obj) (name : string) (v : val) :
  lookup_attr l (set_inst_attr name v o) name = Some v.
Proof. unfold lookup_attr, set_inst_attr; simpl. now rewrite lookup_insert_eq. Qed.

Lemma lookup_attr_set_ne (l : loc) (o : obj) (name name' : string) (v : val) :
  name <> name' ->
  lookup_attr l (set_inst_attr name v o) name' = lookup_attr l o name'.
Proof.
  intros Hne. unfold lookup_attr, set_inst_attr; simpl.
  now rewrite lookup_insert_ne.
Qed.

(** Reading back what was just stored on the object at [l], whatever else
    sits in the heap [h]. *)
Lemma attr_stored (s : state) (h : gmap loc obj) (l : loc) (o : obj)
    (name : string) (v : val) :
  attr (with_heap (<[l := set_inst_attr name v o]> h) s) (VRef l) name = Ok v.
Proof.
  erewrite attr_VRef by (simpl; apply lookup_insert_eq).
  now rewrite lookup_attr_set_eq.
Qed.

(** A new address differs from every address in use. *)
Lemma fresh_loc_ne (h : gmap loc obj) (l : loc) (o : obj) :
  h !! l = Some o -> fresh (dom h) <> l.
Proof.
  intros Ho Heq. apply (is_fresh (dom h)). rewrite Heq.
  apply elem_of_dom. eauto.
Qed.

Lemma model_type_pure (model : val) (s : state) :
  snd (model_config_model_type model s) = s.
Proof.
  unfold model_config_model_type, bind. rewrite getattr_pure.
  destruct (attr s model "config"); [|reflexivity].
  now rewrite getattr_pure.
Qed.

(** ** The attention patch *)

Section Augmentation.

Context (env : environment) (self : PaddingFreeAccelerationPlugin).
Context (model train_args modifiable_args : val) (s : state).

(** At or above the threshold [augmentation] only warns. *)
Lemma augmentation_at_or_above :
  version_lt (transformers_version env) threshold = false ->
  augmentation env self model train_args modifiable_args s =
    (Ok (model, modifiable_args),
     mkState (heap s) (patcher_rules s)
             (emitted_warnings s ++ [version_warning]) (plugin_registry s)).
Proof. intros Hv. unfold augmentation, bind. now rewrite Hv. Qed.

(** Below the threshold it reads the model type and registers one rule. *)
Lemma augmentation_below (mtv : val) :
  version_lt (transformers_version env) threshold = true ->
  fst (model_config_model_type model s) = Ok mtv ->
  augmentation env self model train_args modifiable_args s =
    (Ok (model, modifiable_args),
     mkState (heap s)
             (patcher_rules s ++
                [mkRule (py_str mtv +:+ "-pad-free") (mkTrigger is_flash_attn_2)
                        (partial_build_fa_forward true)])
             (emitted_warnings s) (plugin_registry s)).
Proof.
  intros Hv Hmt. unfold augmentation, bind. rewrite Hv.
  pose proof (model_type_pure model s) as Hpure.
  destruct (model_config_model_type model s) as [r s1]; simpl in *. now subst.
Qed.

(** C1.  For a model whose [config.model_type] is the string [mt],
    [augmentation] adds a rule to the registry of [ModelPatcher] exactly when
    the installed version is below the threshold; the rule then has the id
    [mt-pad-free] and a trigger that accepts the modules whose class name
    ends with [FlashAttention2]; otherwise the registry is left as it was. *)
Theorem augmentation_registers_iff_below (mt : string) :
  fst (model_config_model_type model s) = Ok (VStr mt) ->
  let s' := snd (augmentation env self model train_args modifiable_args s) in
  ((exists r, patcher_rules s' = (patcher_rules s ++ [r])%list /\ pad_free_rule mt r)
   <-> version_lt (transformers_version env) threshold = true) /\
  (version_lt (transformers_version env) threshold = false ->
   patcher_rules s' = patcher_rules s).
Proof.
  intros Hmt s'. subst s'.
  destruct (version_lt (transformers_version env) threshold) eqn:Hv.
  - rewrite (augmentation_below (VStr mt) Hv Hmt). simpl.
    split; [|discriminate]. split; [reflexivity|]. intros _.
    eexists. split; [reflexivity|]. split; [reflexivity|].
    intros module. apply is_flash_attn_2_spec.
  - rewrite (augmentation_at_or_above Hv). simpl.
    split; [|reflexivity]. split; [|discriminate].
    intros [r [Hr _]]. apply (f_equal length) in Hr.
    rewrite length_app in Hr. simpl in Hr. lia.
Qed.

(** C5.  For a model that carries [config.model_type], [augmentation]
    returns the very model and the very modifiable arguments it was given,
    and the heap of host objects is exactly what it was: nothing created,
    nothing removed, nothing rewritten. *)
Theorem augmentation_returns_its_arguments (mtv : val) :
  fst (model_config_model_type model s) = Ok mtv ->
  fst (augmentation env self model train_args modifiable_args s) =
    Ok (model, modifiable_args) /\
  heap (snd (augmentation env self model train_args modifiable_args s)) = heap s.
Proof.
  intros Hmt.
  destruct (version_lt (transformers_version env) threshold) eqn:Hv.
  - now rewrite (augmentation_below mtv Hv Hmt).
  - now rewrite (augmentation_at_or_above Hv).
Qed.

End Augmentation.

Lemma augmentation_registers_iff_below_witness :
  fst (model_config_model_type Fixtures.model Fixtures.world) = Ok (VStr "llama") /\
  let s' := snd (augmentation Fixtures.env_4_43_3 Fixtures.plugin Fixtures.model
                   VNone Fixtures.modifiable_args Fixtures.world) in
  ((exists r, patcher_rules s' = (patcher_rules Fixtures.world ++ [r])%list /\
              pad_free_rule "llama" r)
   <-> version_lt (transformers_version Fixtures.env_4_43_3) threshold = true) /\
  (version_lt (transformers_version Fixtures.env_4_43_3) threshold = false ->
   patcher_rules s' = patcher_rules Fixtures.world).
Proof.
  split; [reflexivity|].
  apply (augmentation_registers_iff_below Fixtures.env_4_43_3 Fixtures.plugin
           Fixtures.model VNone Fixtures.modifiable_args Fixtures.world "llama").
  reflexivity.
Defined.

Lemma augmentation_returns_its_arguments_witness :
  fst (model_config_model_type Fixtures.model Fixtures.world) = Ok (VStr "llama") /\
  fst (augmentation Fixtures.env_4_43_3 Fixtures.plugin Fixtures.model VNone
         Fixtures.modifiable_args Fixtures.world) =
    Ok (Fixtures.model, Fixtures.modifiable_args) /\
  heap (snd (augmentation Fixtures.env_4_43_3 Fixtures.plugin Fixtures.model VNone
               Fixtures.modifiable_args Fixtures.world)) = heap Fixtures.world.
Proof.
  split; [reflexivity|].
  apply (augmentation_returns_its_arguments Fixtures.env_4_43_3 Fixtures.plugin
           Fixtures.model VNone Fixtures.modifiable_args Fixtures.world
           (VStr "llama")).
  reflexivity.
Defined.

(** ** Installing the hijack *)

Section Setup.

Context (env : environment) (self : PaddingFreeAccelerationPlugin).

(** What [_patch_dataloader] does to an accelerator that has a [prepare]. *)
Lemma patch_dataloader_run (l : loc) (o : obj) (old : val) (s : state) :
  heap s !! l = Some o ->
  lookup_attr l o "prepare" = Some old ->
  _patch_dataloader env self (VRef l) s =
    (Ok tt,
     with_heap (<[l := set_inst_attr "prepare"
                         (VMethod (PrepareHijack old (selected_collator env)) (VRef l)) o]>
                  (heap s)) s).
Proof.
  intros Ho Hold. unfold _patch_dataloader, bind, selected_collator.
  rewrite getattr_pure, (attr_VRef _ _ _ _ Ho), Hold.
  unfold setattr. now rewrite Ho.
Qed.

(** Without a readable [prepare] it raises and writes nothing. *)
Lemma patch_dataloader_raise (accelerator : val) (e : exn) (s : state) :
  attr s accelerator "prepare" = Raise e ->
  _patch_dataloader env self accelerator s = (Raise e, s).
Proof.
  intros He. unfold _patch_dataloader, bind. now rewrite getattr_pure, He.
Qed.

Lemma get_callbacks_run (model accelerator : val) (s : state) :
  get_callbacks_and_ready_for_train env self model accelerator s =
    match _patch_dataloader env self accelerator s with
    | (Ok _, s') => (Ok [], s')
    | (Raise e, s') => (Raise e, s')
    end.
Proof. reflexivity. Qed.

(** After a successful set-up call the accelerator carries the hijack. *)
Lemma get_callbacks_patches (model accelerator old : val) (s : state) :
  attr s accelerator "prepare" = Ok old ->
  fst (get_callbacks_and_ready_for_train env self model accelerator s) = Ok [] /\
  patched_by env old accelerator
    (snd (get_callbacks_and_ready_for_train env self model accelerator s)).
Proof.
  intros Hold. destruct (attr_Ok_inv _ _ _ _ Hold) as (l & o & -> & Ho & Hl).
  rewrite get_callbacks_run, (patch_dataloader_run l o old s Ho Hl).
  split; [reflexivity|]. apply attr_stored.
Qed.

(** The nested [prepare], by cases on what it decides. *)
Lemma prepare_by_decision (call_old : list val -> option val -> M val)
    (c : pyclass) (self' : val) (args : list val) (device_placement : option val)
    (s : state) :
  prepare call_old c self' args device_placement s =
    match decide_prepare s args with
    | PassThrough => call_old args (Some (default VNone device_placement)) s
    | Fail e => (Raise e, s)
    | Replace dataloader => replace_collate_fn c dataloader s
    end.
Proof.
  unfold prepare, decide_prepare, replace_collate_fn.
  destruct args as [|a [|b args]]; [reflexivity | | reflexivity].
  unfold bind, index, isinstance_of, ret; simpl.
  destruct (isinstance (heap s) a DataLoader); simpl; [|reflexivity].
  rewrite getattr_pure.
  destruct (attr s a "collate_fn") as [cf|e]; [|reflexivity].
  now destruct (isinstance (heap s) cf DataCollatorForSeq2Seq).
Qed.

(** C6.  One set-up call, on any accelerator: if the accelerator had a
    [prepare], it now has the hijack built once over that very [prepare];
    every other attribute of the accelerator reads as before; every other
    object of the heap is as before and no object was added or removed; the
    rule registry, the warnings and the plugin registry are untouched. *)
Theorem setup_mutates_only_prepare (model accelerator : val) (s : state) :
  let s' := snd (get_callbacks_and_ready_for_train env self model accelerator s) in
  (forall old, attr s accelerator "prepare" = Ok old ->
               patched_by env old accelerator s') /\
  (forall name, name <> "prepare" ->
                attr s' accelerator name = attr s accelerator name) /\
  (forall l, VRef l <> accelerator -> heap s' !! l = heap s !! l) /\
  dom (heap s') = dom (heap s) /\
  patcher_rules s' = patcher_rules s /\
  emitted_warnings s' = emitted_warnings s /\
  plugin_registry s' = plugin_registry s.
Proof.
  intros s'. subst s'.
  destruct (attr s accelerator "prepare") as [old|e] eqn:Hold.
  - destruct (attr_Ok_inv _ _ _ _ Hold) as (l & o & -> & Ho & Hl).
    split.
    { intros old' [= <-]. now apply get_callbacks_patches. }
    rewrite get_callbacks_run, (patch_dataloader_run l o old s Ho Hl).
    simpl. repeat split.
    + intros name Hne.
      erewrite attr_VRef by (simpl; apply lookup_insert_eq).
      rewrite (attr_VRef _ _ _ _ Ho). now rewrite lookup_attr_set_ne.
    + intros l' Hl'. apply lookup_insert_ne. congruence.
    + rewrite dom_insert_L.
      assert (l ∈ dom (heap s)) as Hin by (apply elem_of_dom; eauto).
      apply set_eq. intros x. rewrite elem_of_union, elem_of_singleton.
      split; [intros [-> | Hx]; assumption | now right].
  - rewrite get_callbacks_run, (patch_dataloader_raise accelerator e s Hold).
    simpl. repeat split; try reflexivity. intros old [=].
Qed.

(** C9, as amended.  For every model, [None] included, and every accelerator
    that has a [prepare], the set-up call returns the empty list of
    callbacks; [requires_agumentation] is always true. *)
Theorem callbacks_empty_given_an_accelerator
    (model accelerator old : val) (s : state) :
  attr s accelerator "prepare" = Ok old ->
  fst (get_callbacks_and_ready_for_train env self model accelerator s) = Ok [] /\
  requires_agumentation self = true.
Proof.
  intros Hold. split; [|reflexivity].
  now destruct (get_callbacks_patches model accelerator old s Hold).
Qed.

(** C10.  Whatever version is installed, [_patch_dataloader] on an
    accelerator that has a [prepare] succeeds and leaves it with the hijack
    over that [prepare]; the version picks the class the hijack captures (the
    one of [ilab_utils] below the threshold, the one of transformers
    otherwise) and nothing else: for any captured class the hijack decides by
    [decide_prepare], which sees neither the version nor the class, and the
    class only names what the replacement instantiates. *)
Theorem hijack_not_version_gated (accelerator old : val) (s : state) :
  attr s accelerator "prepare" = Ok old ->
  let r := _patch_dataloader env self accelerator s in
  fst r = Ok tt /\
  attr (snd r) accelerator "prepare" =
    Ok (VMethod (PrepareHijack old (selected_collator env)) accelerator) /\
  (version_lt (transformers_version env) threshold = true ->
   selected_collator env = ilab_utils_DataCollatorWithFlattening) /\
  (version_lt (transformers_version env) threshold = false ->
   selected_collator env = transformers_DataCollatorWithFlattening) /\
  forall (c : pyclass) (self' : val) (args : list val)
         (device_placement : option val) (st : state),
    call_val env (VMethod (PrepareHijack old c) self') args device_placement st =
      match decide_prepare st args with
      | PassThrough => call_val env old args (Some (default VNone device_placement)) st
      | Fail e => (Raise e, st)
      | Replace dataloader => replace_collate_fn c dataloader st
      end.
Proof.
  intros Hold r. subst r.
  destruct (attr_Ok_inv _ _ _ _ Hold) as (l & o & -> & Ho & Hl).
  rewrite (patch_dataloader_run l o old s Ho Hl). simpl.
  split; [reflexivity|]. split; [apply attr_stored|].
  unfold selected_collator.
  split; [now intros -> |]. split; [now intros -> |].
  intros c self' args device_placement st. simpl.
  apply prepare_by_decision.
Qed.

End Setup.

Lemma setup_mutates_only_prepare_witness :
  let s' := Fixtures.patched_world Fixtures.env_4_44_0 in
  patched_by Fixtures.env_4_44_0
    (VMethod (HostFunc "Accelerator.prepare") Fixtures.accelerator)
    Fixtures.accelerator s' /\
  attr s' Fixtures.accelerator "device_placement" = Ok (VBool true) /\
  heap s' !! 4%positive = Some Fixtures.seq2seq_loader.
Proof.
  destruct (setup_mutates_only_prepare Fixtures.env_4_44_0 Fixtures.plugin
              Fixtures.model Fixtures.accelerator Fixtures.world)
    as (Hp & Ha & Hl & _).
  split; [apply Hp; reflexivity|]. split.
  - unfold Fixtures.patched_world. rewrite Ha; [reflexivity | discriminate].
  - unfold Fixtures.patched_world. rewrite Hl; [reflexivity | discriminate].
Defined.

Lemma callbacks_empty_given_an_accelerator_witness :
  attr Fixtures.world Fixtures.accelerator "prepare" =
    Ok (VMethod (HostFunc "Accelerator.prepare") Fixtures.accelerator) /\
  fst (get_callbacks_and_ready_for_train Fixtures.env_4_43_3 Fixtures.plugin
         VNone Fixtures.accelerator Fixtures.world) = Ok [] /\
  requires_agumentation Fixtures.plugin = true.
Proof.
  split; [reflexivity|].
  apply (callbacks_empty_given_an_accelerator Fixtures.env_4_43_3 Fixtures.plugin
           VNone Fixtures.accelerator
           (VMethod (HostFunc "Accelerator.prepare") Fixtures.accelerator)
           Fixtures.world).
  reflexivity.
Defined.

(** C9, as stated, fails: with the accelerator left at its default [None]
    the set-up call raises [AttributeError] where the empty list was
    promised. *)
Lemma callbacks_raise_without_accelerator :
  fst (get_callbacks_and_ready_for_train Fixtures.env_4_44_0 Fixtures.plugin
         VNone VNone Fixtures.world) = Raise AttributeError /\
  fst (get_callbacks_and_ready_for_train Fixtures.env_4_44_0 Fixtures.plugin
         VNone VNone Fixtures.world) <> Ok [].
Proof. split; [reflexivity | discriminate]. Qed.

Lemma hijack_not_version_gated_witness :
  attr (snd (_patch_dataloader Fixtures.env_4_43_3 Fixtures.plugin
               Fixtures.accelerator Fixtures.world))
       Fixtures.accelerator "prepare" =
    Ok (VMethod (PrepareHijack
                   (VMethod (HostFunc "Accelerator.prepare") Fixtures.accelerator)
                   ilab_utils_DataCollatorWithFlattening)
                Fixtures.accelerator) /\
  attr (snd (_patch_dataloader Fixtures.env_4_45_dev Fixtures.plugin
               Fixtures.accelerator Fixtures.world))
       Fixtures.accelerator "prepare" =
    Ok (VMethod (PrepareHijack
                   (VMethod (HostFunc "Accelerator.prepare") Fixtures.accelerator)
                   transformers_DataCollatorWithFlattening)
                Fixtures.accelerator).
Proof.
  split.
  - destruct (hijack_not_version_gated Fixtures.env_4_43_3 Fixtures.plugin
                Fixtures.accelerator
                (VMethod (HostFunc "Accelerator.prepare") Fixtures.accelerator)
                Fixtures.world eq_refl) as (_ & Hp & Hlt & _).
    rewrite Hp, (Hlt eq_refl). reflexivity.
  - destruct (hijack_not_version_gated Fixtures.env_4_45_dev Fixtures.plugin
                Fixtures.accelerator
                (VMethod (HostFunc "Accelerator.prepare") Fixtures.accelerator)
                Fixtures.world eq_refl) as (_ & Hp & _ & Hge & _).
    rewrite Hp, (Hge eq_refl). reflexivity.
Defined.

(** ** Calling the hijacked prepare *)

(** Running the replacement on a data loader that lives on the heap: the
    collator goes to a new address, the constructor warns, the data loader
    is rewritten. *)
Lemma replace_collate_fn_run (c : pyclass) (l : loc) (o : obj) (s : state) :
  heap s !! l = Some o ->
  replace_collate_fn c (VRef l) s =
    (Ok (VRef l),
     with_heap (<[l := set_inst_attr "collate_fn" (VRef (fresh (dom (heap s)))) o]>
                  (<[fresh (dom (heap s)) := flattening_instance c]> (heap s)))
               (snd (warn flattening_warning s))).
Proof.
  intros Ho.
  unfold replace_collate_fn, construct, alloc, bind, warn, setattr, ret; simpl.
  now rewrite lookup_insert_ne, Ho by exact (fresh_loc_ne _ _ _ Ho).
Qed.

Section Hijacked.

(** An accelerator whose [prepare] is the hijack over [old], in state [s]. *)
Context (env : environment) (old accelerator : val) (s : state).
Hypothesis Hpatched : patched_by env old accelerator s.

Lemma invoke_patched (args : list val) (device_placement : option val) :
  invoke_prepare env accelerator args device_placement s =
    match decide_prepare s args with
    | PassThrough => call_val env old args (Some (default VNone device_placement)) s
    | Fail e => (Raise e, s)
    | Replace dataloader => replace_collate_fn (selected_collator env) dataloader s
    end.
Proof.
  unfold invoke_prepare, bind. rewrite getattr_pure, Hpatched. simpl.
  apply prepare_by_decision.
Qed.

(** C3.  On an accelerator that carries the hijack, [prepare] called with one
    argument, a [DataLoader] whose [collate_fn] is no [DataCollatorForSeq2Seq],
    raises the type error and writes nothing: the [collate_fn] is still the
    one it was. *)
Theorem hijack_rejects_other_collators
    (dataloader collate_fn : val) (device_placement : option val) :
  isinstance (heap s) dataloader DataLoader = true ->
  attr s dataloader "collate_fn" = Ok collate_fn ->
  isinstance (heap s) collate_fn DataCollatorForSeq2Seq = false ->
  invoke_prepare env accelerator [dataloader] device_placement s =
    (Raise (TypeError collator_error), s) /\
  attr (snd (invoke_prepare env accelerator [dataloader] device_placement s))
       dataloader "collate_fn" = Ok collate_fn.
Proof.
  intros Hdl Hcf Hno. rewrite invoke_patched.
  unfold decide_prepare. now rewrite Hdl, Hcf, Hno.
Qed.

(** C4.  On an accelerator that carries the hijack, [prepare] called with one
    argument, a [DataLoader] whose [collate_fn] is a [DataCollatorForSeq2Seq],
    returns that same data loader.  Its [collate_fn] now refers to an object
    at an address that was free before the call, and that object is an
    instance of the selected [DataCollatorWithFlattening] class; the object
    of the data loader is the one it was but for its [collate_fn]. *)
Theorem hijack_replaces_seq2seq_collator
    (dataloader collate_fn : val) (device_placement : option val) :
  isinstance (heap s) dataloader DataLoader = true ->
  attr s dataloader "collate_fn" = Ok collate_fn ->
  isinstance (heap s) collate_fn DataCollatorForSeq2Seq = true ->
  let r := invoke_prepare env accelerator [dataloader] device_placement s in
  fst r = Ok dataloader /\
  exists (c : loc) (collator : obj),
    (c ∉ dom (heap s)) /\
    attr (snd r) dataloader "collate_fn" = Ok (VRef c) /\
    heap (snd r) !! c = Some collator /\
    class_of collator = selected_collator env /\
    cls_name (class_of collator) = "DataCollatorWithFlattening" /\
    isinstance (heap (snd r)) (VRef c) (cls_qualname (selected_collator env)) = true /\
    exists l o,
      dataloader = VRef l /\ heap s !! l = Some o /\
      heap (snd r) !! l = Some (set_inst_attr "collate_fn" (VRef c) o).
Proof.
  intros Hdl Hcf Hyes r. subst r.
  destruct (attr_Ok_inv _ _ _ _ Hcf) as (l & o & -> & Ho & _).
  rewrite invoke_patched. unfold decide_prepare. rewrite Hdl, Hcf, Hyes.
  rewrite (replace_collate_fn_run _ _ _ _ Ho). simpl.
  pose proof (fresh_loc_ne _ _ _ Ho) as Hne.
  split; [reflexivity|].
  exists (fresh (dom (heap s))), (flattening_instance (selected_collator env)).
  assert (<[l := set_inst_attr "collate_fn" (VRef (fresh (dom (heap s)))) o]>
            (<[fresh (dom (heap s)) := flattening_instance (selected_collator env)]>
               (heap s)) !! fresh (dom (heap s)) =
          Some (flattening_instance (selected_collator env))) as Hc.
  { rewrite lookup_insert_ne by congruence. apply lookup_insert_eq. }
  repeat split.
  - apply is_fresh.
  - apply attr_stored.
  - exact Hc.
  - unfold selected_collator. now destruct (version_lt _ _).
  - unfold isinstance, val_mro. rewrite Hc. simpl.
    apply bool_decide_eq_true. apply list_elem_of_here.
  - exists l, o. repeat split; [exact Ho | apply lookup_insert_eq].
Qed.

(** C8.  On an accelerator that carries the hijack over [old], a call of
    [prepare] with more than one positional argument, or with one that is no
    [DataLoader], is the call of [old] with the same arguments and the same
    [device_placement] ([None] when the keyword is left out): same result,
    same effects. *)
Theorem hijack_passes_through
    (args : list val) (device_placement : option val) :
  (1 < length args \/
   exists a, args = [a] /\ isinstance (heap s) a DataLoader = false) ->
  invoke_prepare env accelerator args device_placement s =
    call_val env old args (Some (default VNone device_placement)) s.
Proof.
  intros Hargs. rewrite invoke_patched. unfold decide_prepare.
  destruct Hargs as [Hlen | (a & -> & Hno)].
  - destruct args as [|a [|b args]]; simpl in Hlen; [lia | lia | reflexivity].
  - now rewrite Hno.
Qed.

End Hijacked.

Lemma hijack_rejects_other_collators_witness :
  invoke_prepare Fixtures.env_4_44_0 Fixtures.accelerator
    [Fixtures.plain_dataloader] None (Fixtures.patched_world Fixtures.env_4_44_0) =
    (Raise (TypeError collator_error), Fixtures.patched_world Fixtures.env_4_44_0) /\
  attr (snd (invoke_prepare Fixtures.env_4_44_0 Fixtures.accelerator
               [Fixtures.plain_dataloader] None
               (Fixtures.patched_world Fixtures.env_4_44_0)))
       Fixtures.plain_dataloader "collate_fn" =
    Ok (VFunc (HostFunc "default_collate")).
Proof.
  apply (hijack_rejects_other_collators Fixtures.env_4_44_0
           (VMethod (HostFunc "Accelerator.prepare") Fixtures.accelerator)
           Fixtures.accelerator (Fixtures.patched_world Fixtures.env_4_44_0)
           eq_refl Fixtures.plain_dataloader
           (VFunc (HostFunc "default_collate")) None);
    reflexivity.
Defined.

Lemma hijack_replaces_seq2seq_collator_witness :
  let r := invoke_prepare Fixtures.env_4_43_3 Fixtures.accelerator
             [Fixtures.dataloader] None (Fixtures.patched_world Fixtures.env_4_43_3) in
  fst r = Ok Fixtures.dataloader /\
  exists (c : loc) (collator : obj),
    attr (snd r) Fixtures.dataloader "collate_fn" = Ok (VRef c) /\
    heap (snd r) !! c = Some collator /\
    class_of collator = ilab_utils_DataCollatorWithFlattening.
Proof.
  destruct (hijack_replaces_seq2seq_collator Fixtures.env_4_43_3
              (VMethod (HostFunc "Accelerator.prepare") Fixtures.accelerator)
              Fixtures.accelerator (Fixtures.patched_world Fixtures.env_4_43_3)
              eq_refl Fixtures.dataloader (VRef 5%positive) None
              eq_refl eq_refl eq_refl)
    as (Hr & c & collator & _ & Ha & Hc & Hclass & _).
  split; [exact Hr|]. exists c, collator.
  split; [exact Ha | split; [exact Hc | exact Hclass]].
Defined.

Lemma hijack_passes_through_witness :
  invoke_prepare Fixtures.env_4_44_0 Fixtures.accelerator
    [Fixtures.model; Fixtures.dataloader] None
    (Fixtures.patched_world Fixtures.env_4_44_0) =
    (Ok Fixtures.model, Fixtures.patched_world Fixtures.env_4_44_0) /\
  invoke_prepare Fixtures.env_4_44_0 Fixtures.accelerator
    [Fixtures.model] (Some (VBool true))
    (Fixtures.patched_world Fixtures.env_4_44_0) =
    (Ok Fixtures.model, Fixtures.patched_world Fixtures.env_4_44_0).
Proof.
  split.
  - rewrite (hijack_passes_through Fixtures.env_4_44_0
               (VMethod (HostFunc "Accelerator.prepare") Fixtures.accelerator)
               Fixtures.accelerator (Fixtures.patched_world Fixtures.env_4_44_0)
               eq_refl [Fixtures.model; Fixtures.dataloader] None);
      [reflexivity | left; simpl; lia].
  - rewrite (hijack_passes_through Fixtures.env_4_44_0
               (VMethod (HostFunc "Accelerator.prepare") Fixtures.accelerator)
               Fixtures.accelerator (Fixtures.patched_world Fixtures.env_4_44_0)
               eq_refl [Fixtures.model] (Some (VBool true)));
      [reflexivity | right; exists Fixtures.model; split; reflexivity].
Defined.

(** ** The version gate over the whole plugin *)

(** C2, as amended.  At or above the threshold [augmentation] is a no-op
    with a warning: it returns, emits the one warning, registers no rule and
    leaves the heap alone.  The set-up call is not part of that no-op: it
    still hijacks [accelerator.prepare], with the collator of transformers. *)
Theorem augmentation_noop_with_warning
    (env : environment) (self : PaddingFreeAccelerationPlugin)
    (model train_args modifiable_args accelerator old : val) (s : state) :
  version_lt (transformers_version env) threshold = false ->
  augmentation env self model train_args modifiable_args s =
    (Ok (model, modifiable_args),
     mkState (heap s) (patcher_rules s)
             (emitted_warnings s ++ [version_warning]) (plugin_registry s)) /\
  (attr s accelerator "prepare" = Ok old ->
   attr (snd (get_callbacks_and_ready_for_train env self model accelerator s))
        accelerator "prepare" =
     Ok (VMethod (PrepareHijack old transformers_DataCollatorWithFlattening)
                 accelerator)).
Proof.
  intros Hv. split; [now apply augmentation_at_or_above|].
  intros Hold.
  destruct (get_callbacks_patches env self model accelerator old s Hold) as [_ Hp].
  unfold patched_by, selected_collator in Hp. now rewrite Hv in Hp.
Qed.

Lemma augmentation_noop_with_warning_witness :
  version_lt (transformers_version Fixtures.env_4_44_0) threshold = false /\
  emitted_warnings
    (snd (augmentation Fixtures.env_4_44_0 Fixtures.plugin Fixtures.model VNone
            Fixtures.modifiable_args Fixtures.world)) = [version_warning] /\
  attr (Fixtures.patched_world Fixtures.env_4_44_0) Fixtures.accelerator "prepare" =
    Ok (VMethod (PrepareHijack
                   (VMethod (HostFunc "Accelerator.prepare") Fixtures.accelerator)
                   transformers_DataCollatorWithFlattening)
                Fixtures.accelerator).
Proof.
  destruct (augmentation_noop_with_warning Fixtures.env_4_44_0 Fixtures.plugin
              Fixtures.model VNone Fixtures.modifiable_args Fixtures.accelerator
              (VMethod (HostFunc "Accelerator.prepare") Fixtures.accelerator)
              Fixtures.world eq_refl) as [Ha Hp].
  split; [reflexivity|]. split.
  - rewrite Ha. reflexivity.
  - apply Hp. reflexivity.
Defined.

(** C2, as stated, fails: with transformers 4.44.0 installed the set-up of
    the plugin leaves the accelerator with another [prepare], so the heap is
    not what it was. *)
Lemma noop_claim_fails_at_4_44_0 :
  version_lt (transformers_version Fixtures.env_4_44_0) threshold = false /\
  ~ degrades_to_noop Fixtures.env_4_44_0.
Proof.
  split; [reflexivity|]. intros H.
  destruct (H Fixtures.plugin Fixtures.model VNone Fixtures.modifiable_args
              Fixtures.accelerator Fixtures.world) as (_ & _ & Hh).
  apply (f_equal (fun h : gmap loc obj =>
                    o ← h !! 3%positive; inst_attrs o !! "prepare")) in Hh.
  vm_compute in Hh. discriminate Hh.
Qed.

(** * Further properties of the code *)

(** ** Which versions pass the gate *)

Lemma drop_leading_zeros_snoc (l : list nat) (x : nat) :
  drop_leading_zeros (l ++ [x])%list =
    match drop_leading_zeros l with
    | [] => drop_leading_zeros [x]
    | y :: l' => (y :: l' ++ [x])%list
    end.
Proof.
  induction l as [|y l IH]; [reflexivity|].
  destruct y as [|y]; [exact IH | reflexivity].
Qed.

(** Stripping, read from the front of the release. *)
Lemma strip_trailing_zeros_cons (x : nat) (rel : list nat) :
  strip_trailing_zeros (x :: rel) =
    match strip_trailing_zeros rel with
    | [] => match x with 0 => [] | S _ => [x] end
    | y :: rel' => x :: y :: rel'
    end.
Proof.
  unfold strip_trailing_zeros. simpl rev at 2.
  rewrite drop_leading_zeros_snoc.
  destruct (drop_leading_zeros (rev rel)) as [|y l] eqn:Hd.
  - now destruct x.
  - change (y :: l ++ [x])%list with ((y :: l) ++ [x])%list.
    rewrite rev_app_distr. simpl rev at 1.
    destruct (rev (y :: l)) as [|z l'] eqn:Hr; [|reflexivity].
    apply (f_equal (@length nat)) in Hr. rewrite length_rev in Hr. discriminate.
Qed.

(** For a final release only the release numbers decide. *)
Lemma version_lt_final_release (rel : list nat) :
  version_lt (final_release rel) threshold =
    match compare_tuple Nat.compare (strip_trailing_zeros rel) [4; 44] with
    | Lt => true
    | _ => false
    end.
Proof.
  unfold version_lt, compare_key, cmpkey, final_release, threshold; simpl.
  change (strip_trailing_zeros [4; 44]) with [4; 44].
  now destruct (compare_tuple Nat.compare (strip_trailing_zeros rel) [4; 44]).
Qed.

Ltac compare_cases :=
  repeat match goal with
         | |- context [Nat.compare ?x ?y] =>
             destruct (Nat.compare_spec x y); cbn [compare_tuple]
         end;
  intuition (try discriminate; try lia).

(** X11.  The gate on final releases: a release [a.b. ...] is below the
    threshold, and so gets the attention patch and the local collator,
    exactly when [a < 4], or [a = 4] and [b < 44]. *)
Theorem gate_on_final_releases (a b : nat) (rest : list nat) :
  version_lt (final_release (a :: b :: rest)) threshold = true <->
  a < 4 \/ (a = 4 /\ b < 44).
Proof.
  rewrite version_lt_final_release, !strip_trailing_zeros_cons.
  destruct (strip_trailing_zeros rest) as [|y rest'];
    [destruct b as [|b]; [destruct a as [|a]|] |];
    cbn [compare_tuple]; compare_cases.
Qed.

(** X12.  Builds of 4.44 itself: a version whose release is 4.44 (trailing
    zeros aside) is below the threshold exactly when it is a pre-release, or
    a development release that is not a post-release.  So 4.44.0.dev0 and
    4.44.0rc1 are patched like 4.43, while 4.44.0.post1 is not. *)
Theorem gate_on_builds_of_the_threshold (v : Version) :
  epoch v = 0 ->
  strip_trailing_zeros (release v) = [4; 44] ->
  (version_lt v threshold = true <->
   pre v <> None \/ (post v = None /\ dev v <> None)).
Proof.
  intros He Hr. unfold version_lt, compare_key, cmpkey, threshold; simpl.
  rewrite He, Hr. change (strip_trailing_zeros [4; 44]) with [4; 44].
  simpl.
  destruct (pre v) as [[letter n]|], (post v) as [m|], (dev v) as [d|],
           (local v) as [seg|]; simpl;
    intuition (try discriminate; try congruence).
Qed.

Lemma gate_on_builds_of_the_threshold_witness :
  version_lt (mkVersion 0 [4; 44; 0] None None (Some 0) None) threshold = true /\
  version_lt (mkVersion 0 [4; 44; 0] None (Some 1) None None) threshold = false.
Proof.
  split.
  - apply (gate_on_builds_of_the_threshold
             (mkVersion 0 [4; 44; 0] None None (Some 0) None) eq_refl eq_refl).
    right. split; [reflexivity | discriminate].
  - destruct (version_lt (mkVersion 0 [4; 44; 0] None (Some 1) None None) threshold)
      eqn:Hlt; [|reflexivity].
    apply (gate_on_builds_of_the_threshold
             (mkVersion 0 [4; 44; 0] None (Some 1) None None) eq_refl eq_refl) in Hlt.
    destruct Hlt as [Hpre | [Hpost _]]; [now elim Hpre | discriminate Hpost].
Defined.

(** ** More on the attention patch *)

(** What an attribute read gives depends on the heap alone. *)
Lemma attr_heap_ext (s1 s2 : state) (v : val) (name : string) :
  heap s1 = heap s2 -> attr s1 v name = attr s2 v name.
Proof.
  intros Hh. unfold attr, getattr. destruct v; try reflexivity.
  rewrite Hh. destruct (heap s2 !! l) as [o|]; [|reflexivity].
  now destruct (lookup_attr l o name).
Qed.

Lemma string_length_app (s t : string) :
  String.length (s +:+ t) = String.length s + String.length t.
Proof. induction s as [|c s IH]; simpl; [reflexivity | now rewrite IH]. Qed.

(** Two strings with the same text appended are the same. *)
Lemma string_app_inj_r (s1 s2 t : string) :
  s1 +:+ t = s2 +:+ t -> s1 = s2.
Proof.
  revert s2. induction s1 as [|c s1 IH]; intros [|c' s2] H.
  - reflexivity.
  - apply (f_equal String.length) in H.
    rewrite !string_length_app in H. simpl in H. lia.
  - apply (f_equal String.length) in H.
    rewrite !string_length_app in H. simpl in H. lia.
  - change (String c (s1 +:+ t) = String c' (s2 +:+ t)) in H.
    injection H as -> H. f_equal. now apply IH.
Qed.

Section AugmentationMore.

Context (env : environment) (self : PaddingFreeAccelerationPlugin).

(** X1.  Below the threshold, when [model.config.model_type] cannot be read
    (the model is [None], or has no [config], or its [config] has no
    [model_type]), [augmentation] raises the error of that read and stops
    there: no rule has been registered and nothing has been written, since
    the read comes before the registration. *)
Theorem augmentation_unreadable_model_type
    (model train_args modifiable_args : val) (e : exn) (s : state) :
  version_lt (transformers_version env) threshold = true ->
  fst (model_config_model_type model s) = Raise e ->
  augmentation env self model train_args modifiable_args s = (Raise e, s).
Proof.
  intros Hv He. unfold augmentation, bind. rewrite Hv.
  pose proof (model_type_pure model s) as Hpure.
  destruct (model_config_model_type model s) as [r s1]; simpl in *. now subst.
Qed.

(** X3.  Rule ids tell model types apart: when two calls below the
    threshold, on models of types [mt1] and [mt2], leave rules with the same
    id at the end of the registry, then [mt1] and [mt2] are the same. *)
Theorem rule_ids_tell_model_types_apart
    (model1 model2 train_args1 train_args2 modifiable_args1 modifiable_args2 : val)
    (mt1 mt2 : string) (s1 s2 : state) :
  version_lt (transformers_version env) threshold = true ->
  fst (model_config_model_type model1 s1) = Ok (VStr mt1) ->
  fst (model_config_model_type model2 s2) = Ok (VStr mt2) ->
  rule_id <$> last (patcher_rules
                      (snd (augmentation env self model1 train_args1
                              modifiable_args1 s1))) =
  rule_id <$> last (patcher_rules
                      (snd (augmentation env self model2 train_args2
                              modifiable_args2 s2))) ->
  mt1 = mt2.
Proof.
  intros Hv H1 H2.
  rewrite (augmentation_below env self model1 train_args1 modifiable_args1
             s1 (VStr mt1) Hv H1).
  rewrite (augmentation_below env self model2 train_args2 modifiable_args2
             s2 (VStr mt2) Hv H2).
  simpl. rewrite !last_snoc. simpl. intros [= Hid].
  now apply string_app_inj_r in Hid.
Qed.

End AugmentationMore.

Lemma augmentation_unreadable_model_type_witness :
  augmentation Fixtures.env_4_43_3 Fixtures.plugin VNone VNone
    Fixtures.modifiable_args Fixtures.world =
    (Raise AttributeError, Fixtures.world) /\
  augmentation Fixtures.env_4_43_3 Fixtures.plugin Fixtures.modifiable_args VNone
    Fixtures.modifiable_args Fixtures.world =
    (Raise AttributeError, Fixtures.world).
Proof.
  split.
  - apply (augmentation_unreadable_model_type Fixtures.env_4_43_3
             Fixtures.plugin VNone VNone Fixtures.modifiable_args
             AttributeError Fixtures.world); reflexivity.
  - apply (augmentation_unreadable_model_type Fixtures.env_4_43_3
             Fixtures.plugin Fixtures.modifiable_args VNone
             Fixtures.modifiable_args AttributeError Fixtures.world);
      reflexivity.
Defined.

Lemma rule_ids_tell_model_types_apart_witness :
  rule_id <$> last (patcher_rules
                      (snd (augmentation Fixtures.env_4_43_3 Fixtures.plugin
                              Fixtures.model VNone Fixtures.modifiable_args
                              Fixtures.world))) = Some "llama-pad-free" /\
  "llama" = "llama".
Proof.
  split; [reflexivity|].
  apply (rule_ids_tell_model_types_apart Fixtures.env_4_43_3 Fixtures.plugin
           Fixtures.model Fixtures.model VNone VNone
           Fixtures.modifiable_args Fixtures.modifiable_args
           "llama" "llama" Fixtures.world Fixtures.world);
    reflexivity.
Defined.

(** ** More on the data loader hijack *)

(** The replacement leaves every attribute but [collate_fn] of every object
    of the old heap as it was. *)
Lemma attr_after_replace (c : pyclass) (l lv : loc) (o ov : obj)
    (name : string) (s : state) :
  heap s !! l = Some o ->
  heap s !! lv = Some ov ->
  name <> "collate_fn" ->
  attr (snd (replace_collate_fn c (VRef l) s)) (VRef lv) name =
    attr s (VRef lv) name.
Proof.
  intros Ho Hov Hne. rewrite (replace_collate_fn_run c l o s Ho). simpl.
  rewrite (attr_VRef s lv ov name Hov).
  destruct (decide (lv = l)) as [-> | Hl].
  - assert (ov = o) as -> by congruence.
    erewrite attr_VRef by (simpl; apply lookup_insert_eq).
    rewrite lookup_attr_set_ne by congruence. reflexivity.
  - erewrite attr_VRef; [reflexivity|]. simpl.
    rewrite lookup_insert_ne by congruence.
    rewrite lookup_insert_ne; [exact Hov|].
    exact (fresh_loc_ne _ _ _ Hov).
Qed.

(** The object of the data loader keeps its class through the replacement. *)
Lemma isinstance_after_replace (c : pyclass) (l : loc) (o : obj)
    (q : qualname) (s : state) :
  heap s !! l = Some o ->
  isinstance (heap (snd (replace_collate_fn c (VRef l) s))) (VRef l) q =
    isinstance (heap s) (VRef l) q.
Proof.
  intros Ho. rewrite (replace_collate_fn_run c l o s Ho). simpl.
  unfold isinstance, val_mro. now rewrite lookup_insert_eq, Ho.
Qed.

Section SetupMore.

Context (env : environment) (self : PaddingFreeAccelerationPlugin).

(** X4.  The set-up call fails exactly when [accelerator.prepare] cannot be
    read, with the error of that read, and then it has written nothing; with
    [None] for the accelerator this is an [AttributeError] in every state. *)
Theorem setup_raises_iff (model accelerator : val) (s : state) (e : exn) :
  (fst (get_callbacks_and_ready_for_train env self model accelerator s) = Raise e <->
   attr s accelerator "prepare" = Raise e) /\
  (fst (get_callbacks_and_ready_for_train env self model accelerator s) = Raise e ->
   snd (get_callbacks_and_ready_for_train env self model accelerator s) = s) /\
  get_callbacks_and_ready_for_train env self model VNone s =
    (Raise AttributeError, s).
Proof.
  split; [|split; [|reflexivity]].
  - destruct (attr s accelerator "prepare") as [old|e'] eqn:Hold.
    + destruct (get_callbacks_patches env self model accelerator old s Hold)
        as [-> _].
      split; discriminate.
    + rewrite get_callbacks_run,
        (patch_dataloader_raise env self accelerator e' s Hold). simpl.
      split; intros [= ->]; reflexivity.
  - destruct (attr s accelerator "prepare") as [old|e'] eqn:Hold.
    + destruct (get_callbacks_patches env self model accelerator old s Hold)
        as [-> _].
      discriminate.
    + now rewrite get_callbacks_run,
        (patch_dataloader_raise env self accelerator e' s Hold).
Qed.

(** X2.  The two gates of the plugin agree.  After [augmentation] and the
    set-up call, on a model with a readable model type and an accelerator
    with a [prepare], the plugin is in one of two configurations: below the
    threshold one more rule is registered, no warning was emitted and the
    hijack instantiates the collator of [ilab_utils]; otherwise no rule is
    registered, the warning was emitted and the hijack instantiates the
    collator of transformers. *)
Theorem both_gates_agree
    (model train_args modifiable_args accelerator old mtv : val) (s : state) :
  fst (model_config_model_type model s) = Ok mtv ->
  attr s accelerator "prepare" = Ok old ->
  let s' := after_setup env self model train_args modifiable_args accelerator s in
  (version_lt (transformers_version env) threshold = true /\
   length (patcher_rules s') = S (length (patcher_rules s)) /\
   emitted_warnings s' = emitted_warnings s /\
   attr s' accelerator "prepare" =
     Ok (VMethod (PrepareHijack old ilab_utils_DataCollatorWithFlattening)
                 accelerator)) \/
  (version_lt (transformers_version env) threshold = false /\
   patcher_rules s' = patcher_rules s /\
   emitted_warnings s' = (emitted_warnings s ++ [version_warning])%list /\
   attr s' accelerator "prepare" =
     Ok (VMethod (PrepareHijack old transformers_DataCollatorWithFlattening)
                 accelerator)).
Proof.
  intros Hmt Hold s'. subst s'. unfold after_setup.
  destruct (attr_Ok_inv _ _ _ _ Hold) as (l & o & -> & Ho & Hl).
  destruct (version_lt (transformers_version env) threshold) eqn:Hv; [left | right].
  - rewrite (augmentation_below env self model train_args modifiable_args
               s mtv Hv Hmt). simpl snd.
    rewrite get_callbacks_run.
    match goal with
    | |- context [_patch_dataloader env self (VRef l) ?st] =>
        rewrite (patch_dataloader_run env self l o old st Ho Hl)
    end. simpl.
    repeat split.
    + rewrite length_app. simpl. lia.
    + rewrite attr_stored. unfold selected_collator. now rewrite Hv.
  - rewrite (augmentation_at_or_above env self model train_args modifiable_args
               s Hv). simpl snd.
    rewrite get_callbacks_run.
    match goal with
    | |- context [_patch_dataloader env self (VRef l) ?st] =>
        rewrite (patch_dataloader_run env self l o old st Ho Hl)
    end. simpl.
    repeat split.
    rewrite attr_stored. unfold selected_collator. now rewrite Hv.
Qed.

(** X10.  Setting up twice is harmless.  After two set-up calls the
    accelerator carries a hijack over the first hijack, and a call of its
    [prepare] does what a single hijack over the original [prepare] does:
    the inner hijack never gets to decide anything. *)
Theorem double_setup_acts_as_single
    (model accelerator old : val) (s : state) :
  attr s accelerator "prepare" = Ok old ->
  let s1 := snd (get_callbacks_and_ready_for_train env self model accelerator s) in
  let s2 := snd (get_callbacks_and_ready_for_train env self model accelerator s1) in
  attr s2 accelerator "prepare" =
    Ok (VMethod (PrepareHijack
                   (VMethod (PrepareHijack old (selected_collator env)) accelerator)
                   (selected_collator env)) accelerator) /\
  forall (args : list val) (device_placement : option val) (st : state),
    attr st accelerator "prepare" = attr s2 accelerator "prepare" ->
    invoke_prepare env accelerator args device_placement st =
      call_val env (VMethod (PrepareHijack old (selected_collator env)) accelerator)
               args device_placement st.
Proof.
  intros Hold s1 s2.
  destruct (get_callbacks_patches env self model accelerator old s Hold)
    as [_ Hp1]. fold s1 in Hp1.
  destruct (get_callbacks_patches env self model accelerator _ s1 Hp1)
    as [_ Hp2]. fold s2 in Hp2.
  split; [exact Hp2|].
  intros args device_placement st Hst.
  unfold invoke_prepare, bind. rewrite getattr_pure, Hst, Hp2. simpl.
  rewrite !prepare_by_decision.
  now destruct (decide_prepare st args).
Qed.

End SetupMore.

Lemma both_gates_agree_witness :
  let s' := after_setup Fixtures.env_4_43_3 Fixtures.plugin Fixtures.model VNone
              Fixtures.modifiable_args Fixtures.accelerator Fixtures.world in
  map rule_id (patcher_rules s') = ["llama-pad-free"] /\
  emitted_warnings s' = [] /\
  (version_lt (transformers_version Fixtures.env_4_43_3) threshold = true ->
   attr s' Fixtures.accelerator "prepare" =
     Ok (VMethod (PrepareHijack
                    (VMethod (HostFunc "Accelerator.prepare") Fixtures.accelerator)
                    ilab_utils_DataCollatorWithFlattening)
                 Fixtures.accelerator)).
Proof.
  split; [reflexivity|]. split; [reflexivity|]. intros Hv.
  destruct (both_gates_agree Fixtures.env_4_43_3 Fixtures.plugin
              Fixtures.model VNone Fixtures.modifiable_args Fixtures.accelerator
              (VMethod (HostFunc "Accelerator.prepare") Fixtures.accelerator)
              (VStr "llama") Fixtures.world eq_refl eq_refl)
    as [(_ & _ & _ & Ha) | (Hge & _)].
  - exact Ha.
  - rewrite Hv in Hge. discriminate Hge.
Defined.

Lemma double_setup_acts_as_single_witness :
  let s1 := Fixtures.patched_world Fixtures.env_4_44_0 in
  let s2 := snd (get_callbacks_and_ready_for_train Fixtures.env_4_44_0
                   Fixtures.plugin Fixtures.model Fixtures.accelerator s1) in
  invoke_prepare Fixtures.env_4_44_0 Fixtures.accelerator
    [Fixtures.model] None s2 = (Ok Fixtures.model, s2).
Proof.
  intros s1 s2.
  destruct (double_setup_acts_as_single Fixtures.env_4_44_0 Fixtures.plugin
              Fixtures.model Fixtures.accelerator
              (VMethod (HostFunc "Accelerator.prepare") Fixtures.accelerator)
              Fixtures.world eq_refl) as [_ Hcall].
  rewrite (Hcall [Fixtures.model] None s2 eq_refl). reflexivity.
Defined.

(** X6.  A single [DataLoader] argument never reaches the original
    [prepare]: what the hijack returns and writes is the same whatever the
    captured [_old_prepare] is, whatever the functions of the training
    stack do and whatever [device_placement] was passed.  The data loader
    therefore comes back without the preparation the accelerator would have
    given it. *)
Theorem hijack_never_prepares_the_dataloader
    (env1 env2 : environment) (old1 old2 : val) (c : pyclass) (self' : val)
    (dataloader : val) (device_placement1 device_placement2 : option val)
    (s : state) :
  isinstance (heap s) dataloader DataLoader = true ->
  call_val env1 (VMethod (PrepareHijack old1 c) self') [dataloader]
           device_placement1 s =
  call_val env2 (VMethod (PrepareHijack old2 c) self') [dataloader]
           device_placement2 s.
Proof.
  intros Hdl. simpl. rewrite !prepare_by_decision.
  unfold decide_prepare. rewrite Hdl.
  destruct (attr s dataloader "collate_fn") as [cf|e]; [|reflexivity].
  now destruct (isinstance (heap s) cf DataCollatorForSeq2Seq).
Qed.

Lemma hijack_never_prepares_the_dataloader_witness :
  call_val Fixtures.env_4_43_3
    (VMethod (PrepareHijack VNone ilab_utils_DataCollatorWithFlattening)
             Fixtures.accelerator)
    [Fixtures.dataloader] None Fixtures.world =
  call_val Fixtures.env_4_44_0
    (VMethod (PrepareHijack (VFunc (HostFunc "Accelerator.prepare"))
                            ilab_utils_DataCollatorWithFlattening)
             Fixtures.accelerator)
    [Fixtures.dataloader] (Some (VBool false)) Fixtures.world.
Proof.
  apply (hijack_never_prepares_the_dataloader Fixtures.env_4_43_3
           Fixtures.env_4_44_0 VNone (VFunc (HostFunc "Accelerator.prepare"))
           ilab_utils_DataCollatorWithFlattening Fixtures.accelerator
           Fixtures.dataloader None (Some (VBool false)) Fixtures.world).
  reflexivity.
Defined.

Section HijackedMore.

Context (env : environment) (old accelerator : val) (s : state).
Hypothesis Hpatched : patched_by env old accelerator s.

(** X5.  Called with no positional argument, the hijacked [prepare] raises
    [IndexError] (it looks at [args[0]]) and writes nothing; the original
    [prepare] is not consulted. *)
Theorem hijack_without_arguments (device_placement : option val) :
  invoke_prepare env accelerator [] device_placement s = (Raise IndexError, s).
Proof. now rewrite (invoke_patched env old accelerator s Hpatched). Qed.

(** X8.  The hijack outlives the calls it serves: after a call with a single
    [DataLoader] argument, whether it replaced the collator or raised, the
    accelerator still carries the same hijack, so every later data loader is
    treated alike. *)
Theorem hijack_stays_installed
    (dataloader : val) (device_placement : option val) :
  isinstance (heap s) dataloader DataLoader = true ->
  patched_by env old accelerator
    (snd (invoke_prepare env accelerator [dataloader] device_placement s)).
Proof.
  intros Hdl. rewrite (invoke_patched env old accelerator s Hpatched).
  unfold decide_prepare. rewrite Hdl.
  destruct (attr s dataloader "collate_fn") as [cf|e] eqn:Hcf; [|exact Hpatched].
  destruct (isinstance (heap s) cf DataCollatorForSeq2Seq); [|exact Hpatched].
  destruct (attr_Ok_inv _ _ _ _ Hcf) as (l & o & -> & Ho & _).
  destruct (attr_Ok_inv _ _ _ _ Hpatched) as (la & oa & -> & Hoa & _).
  unfold patched_by.
  rewrite (attr_after_replace _ l la o oa "prepare" s Ho Hoa); [exact Hpatched|].
  discriminate.
Qed.

(** X7.  What the replacement leaves alone: every attribute of the data
    loader other than [collate_fn] reads as before; every object that was on
    the heap, other than the data loader, is unchanged (the old collator
    among them); exactly one address was added; the rule registry and the
    plugin registry are untouched, and the warnings emitted earlier are
    still there, in order, before whatever the constructor adds. *)
Theorem replacement_frame
    (dataloader collate_fn : val) (device_placement : option val) :
  isinstance (heap s) dataloader DataLoader = true ->
  attr s dataloader "collate_fn" = Ok collate_fn ->
  isinstance (heap s) collate_fn DataCollatorForSeq2Seq = true ->
  let s' := snd (invoke_prepare env accelerator [dataloader] device_placement s) in
  (forall name, name <> "collate_fn" ->
                attr s' dataloader name = attr s dataloader name) /\
  (forall l o, heap s !! l = Some o -> VRef l <> dataloader ->
               heap s' !! l = Some o) /\
  dom (heap s') = {[fresh (dom (heap s))]} ∪ dom (heap s) /\
  patcher_rules s' = patcher_rules s /\
  emitted_warnings s `prefix_of` emitted_warnings s' /\
  plugin_registry s' = plugin_registry s.
Proof.
  intros Hdl Hcf Hyes s'. subst s'.
  destruct (attr_Ok_inv _ _ _ _ Hcf) as (l & o & -> & Ho & _).
  rewrite (invoke_patched env old accelerator s Hpatched).
  unfold decide_prepare. rewrite Hdl, Hcf, Hyes.
  split.
  { intros name Hne. now apply (attr_after_replace _ l l o o name s Ho Ho). }
  rewrite (replace_collate_fn_run _ _ _ _ Ho); simpl.
  split; [|split; [|split; [reflexivity | split; [|reflexivity]]]].
  - intros l' o' Ho' Hl'.
    rewrite lookup_insert_ne by congruence.
    rewrite lookup_insert_ne; [exact Ho'|].
    exact (fresh_loc_ne _ _ _ Ho').
  - rewrite !dom_insert_L.
    assert (l ∈ dom (heap s)) as Hin by (apply elem_of_dom; eauto).
    apply set_eq. intros x. rewrite !elem_of_union, !elem_of_singleton.
    split; [intros [-> | H]; [now right | exact H] | now right].
  - now exists [flattening_warning].
Qed.

(** X9.  The hijack serves a data loader once.  Provided the selected
    flattening collator is no subclass of [DataCollatorForSeq2Seq], a second
    call of [prepare] on a data loader whose collator was just replaced
    raises the type error, and again writes nothing. *)
Theorem hijack_serves_a_dataloader_once
    (dataloader collate_fn : val) (device_placement device_placement' : option val) :
  bool_decide (DataCollatorForSeq2Seq ∈ cls_mro (selected_collator env)) = false ->
  isinstance (heap s) dataloader DataLoader = true ->
  attr s dataloader "collate_fn" = Ok collate_fn ->
  isinstance (heap s) collate_fn DataCollatorForSeq2Seq = true ->
  let s1 := snd (invoke_prepare env accelerator [dataloader] device_placement s) in
  invoke_prepare env accelerator [dataloader] device_placement' s1 =
    (Raise (TypeError collator_error), s1).
Proof.
  intros Hclass Hdl Hcf Hyes s1.
  destruct (attr_Ok_inv _ _ _ _ Hcf) as (l & o & -> & Ho & _).
  destruct (attr_Ok_inv _ _ _ _ Hpatched) as (la & oa & -> & Hoa & _).
  assert (s1 = snd (replace_collate_fn (selected_collator env) (VRef l) s)) as Hs1.
  { subst s1. rewrite (invoke_patched env old (VRef la) s Hpatched).
    unfold decide_prepare. now rewrite Hdl, Hcf, Hyes. }
  assert (patched_by env old (VRef la) s1) as Hp1.
  { unfold patched_by. rewrite Hs1.
    rewrite (attr_after_replace _ l la o oa "prepare" s Ho Hoa); [exact Hpatched|].
    discriminate. }
  rewrite (invoke_patched env old (VRef la) s1 Hp1).
  unfold decide_prepare.
  assert (isinstance (heap s1) (VRef l) DataLoader = true) as ->.
  { rewrite Hs1, (isinstance_after_replace _ l o _ s Ho). exact Hdl. }
  rewrite Hs1, (replace_collate_fn_run _ _ _ _ Ho). simpl.
  rewrite attr_stored.
  unfold isinstance at 1. simpl.
  rewrite lookup_insert_ne by exact (not_eq_sym (fresh_loc_ne _ _ _ Ho)).
  rewrite lookup_insert_eq. simpl.
  now rewrite Hclass.
Qed.

End HijackedMore.

Lemma hijack_without_arguments_witness :
  invoke_prepare Fixtures.env_4_44_0 Fixtures.accelerator [] None
    (Fixtures.patched_world Fixtures.env_4_44_0) =
    (Raise IndexError, Fixtures.patched_world Fixtures.env_4_44_0).
Proof.
  apply (hijack_without_arguments Fixtures.env_4_44_0
           (VMethod (HostFunc "Accelerator.prepare") Fixtures.accelerator)
           Fixtures.accelerator (Fixtures.patched_world Fixtures.env_4_44_0)
           eq_refl None).
Defined.

Lemma hijack_stays_installed_witness :
  patched_by Fixtures.env_4_43_3
    (VMethod (HostFunc "Accelerator.prepare") Fixtures.accelerator)
    Fixtures.accelerator
    (snd (invoke_prepare Fixtures.env_4_43_3 Fixtures.accelerator
            [Fixtures.dataloader] None (Fixtures.patched_world Fixtures.env_4_43_3))).
Proof.
  apply (hijack_stays_installed Fixtures.env_4_43_3
           (VMethod (HostFunc "Accelerator.prepare") Fixtures.accelerator)
           Fixtures.accelerator (Fixtures.patched_world Fixtures.env_4_43_3)
           eq_refl Fixtures.dataloader None).
  reflexivity.
Defined.

Lemma replacement_frame_witness :
  let s := Fixtures.patched_world Fixtures.env_4_43_3 in
  let s' := snd (invoke_prepare Fixtures.env_4_43_3 Fixtures.accelerator
                   [Fixtures.dataloader] None s) in
  heap s' !! 5%positive = Some Fixtures.seq2seq_collator /\
  heap s' !! 6%positive = Some Fixtures.default_loader.
Proof.
  intros s s'.
  destruct (replacement_frame Fixtures.env_4_43_3
              (VMethod (HostFunc "Accelerator.prepare") Fixtures.accelerator)
              Fixtures.accelerator s eq_refl Fixtures.dataloader
              (VRef 5%positive) None eq_refl eq_refl eq_refl)
    as (_ & Hobj & _).
  split; apply Hobj; (reflexivity || discriminate).
Defined.

Lemma hijack_serves_a_dataloader_once_witness :
  let s := Fixtures.patched_world Fixtures.env_4_43_3 in
  let s1 := snd (invoke_prepare Fixtures.env_4_43_3 Fixtures.accelerator
                   [Fixtures.dataloader] None s) in
  invoke_prepare Fixtures.env_4_43_3 Fixtures.accelerator
    [Fixtures.dataloader] None s1 = (Raise (TypeError collator_error), s1).
Proof.
  intros s s1.
  apply (hijack_serves_a_dataloader_once Fixtures.env_4_43_3
           (VMethod (HostFunc "Accelerator.prepare") Fixtures.accelerator)
           Fixtures.accelerator s eq_refl Fixtures.dataloader
           (VRef 5%positive) None None);
    reflexivity.
Defined.
